(** * fake-gcs-server: bucket handlers and response builders

    A shallow embedding of [fakestorage/response.go] and of the bucket
    handlers ([Server.CreateBucket], [createBucketByPost], [listBuckets],
    [getBucket]), with the properties of the response shapes they produce.

    Conventions
    - Go [string] is [string] (a sequence of bytes); [<] on strings is the
      byte-wise lexicographic order, [String.ltb].
    - Go [int] and [int64] values are [Z]; every integer that occurs here is a
      length or an HTTP status, and [int64(len(x))] widens without wrapping.
    - A slice whose [nil]-ness is visible in the JSON output is an
      [option (list _)] ([None] is [nil]); a slice that is only measured and
      ranged over is a [list].
    - A pointer that may be [nil] is an [option].
    - The slice argument of [newListBucketsResponse] is written through by
      [sort.Strings]; the function is modelled in state-passing style and
      returns the contents of the caller's slice after the call. *)

From Stdlib Require Import ZArith String Ascii List Sorted Permutation Lia.
From Stdlib Require Import DecimalString DecimalZ DecimalPos.
From stdpp Require Import base option list sorting gmap strings.

Local Open Scope string_scope.
Local Open Scope Z_scope.

(** ** Strings as Go orders them *)

Module GoString.

(** [a < b] on Go strings. *)
Definition less (a b : string) : bool := String.ltb a b.

(** The non-strict order that a sorted slice satisfies: no element is
    greater than its successor. *)
Definition le (a b : string) : Prop := String.leb a b = true.

End GoString.

(** ** [sort.Strings]

    [sort.Strings] belongs to Go's standard library: it sorts the slice in
    place, in increasing order.  Equal strings are indistinguishable, so the
    final contents of the slice are determined by that contract alone (see
    [sort_Strings_unique] below); the model computes them by insertion, the
    method the library itself uses on short slices. *)

Fixpoint insert_sorted (x : string) (l : list string) : list string :=
  match l with
  | [] => [x]
  | y :: l' => if GoString.less x y then x :: y :: l' else y :: insert_sorted x l'
  end.

Fixpoint sort_Strings (x : list string) : list string :=
  match x with
  | [] => []
  | a :: x' => insert_sorted a (sort_Strings x')
  end.

(** ** Decimal text of integers

    [strconv.FormatInt(i, 10)], which [encoding/json] uses for an integer
    field, and [appendInt] of package [time], which pads to a width. *)

Definition FormatInt (i : Z) : string := NilZero.string_of_int (Z.to_int i).

Fixpoint zeros (n : nat) : string :=
  match n with
  | O => ""
  | S n' => String "0" (zeros n')
  end.

Definition appendInt (x : Z) (width : nat) : string :=
  let digits := NilZero.string_of_uint (N.to_uint (Z.to_N (Z.abs x))) in
  let padded := (zeros (width - String.length digits)%nat ++ digits)%string in
  if x <? 0 then ("-" ++ padded)%string else padded.

(** ** [time.Time] and [Format(time.RFC3339)]

    Package [time] is Go's standard library.  A [Time] is an instant, counted
    in seconds from January 1 of year 1, 00:00:00 UTC, together with the
    offset (seconds east of UTC) that its location has at that instant; the
    zero value is that origin in UTC.  [Format] renders the civil date and
    clock of the instant shifted by the offset. *)

Module GoTime.

Record Time : Type := mkTime {
  sec : Z;      (* seconds since 0001-01-01T00:00:00Z *)
  nsec : Z;     (* nanoseconds within the second *)
  offset : Z    (* zone offset in effect, seconds east of UTC *)
}.

(** [time.Time{}] *)
Definition zero : Time := {| sec := 0; nsec := 0; offset := 0 |}.

Definition secondsPerDay : Z := 86400.

Record Date : Type := mkDate { year : Z; month : Z; day : Z }.

(** Civil date of the day numbered [d], day 0 being 0001-01-01, in the
    proleptic Gregorian calendar.  The count is moved to a year that starts
    on March 1, so that the leap day closes the year; 146097 days make a
    400-year cycle. *)
Definition date_of_days (d : Z) : Date :=
  let z := d + 306 in
  let era := z / 146097 in
  let doe := z - era * 146097 in
  let yoe := (doe - doe / 1460 + doe / 36524 - doe / 146096) / 365 in
  let doy := doe - (365 * yoe + yoe / 4 - yoe / 100) in
  let mp := (5 * doy + 2) / 153 in
  let d' := doy - (153 * mp + 2) / 5 + 1 in
  let m := if mp <? 10 then mp + 3 else mp - 9 in
  let y := yoe + era * 400 + (if m <=? 2 then 1 else 0) in
  {| year := y; month := m; day := d' |}.

(** The zone suffix of the layout element [Z07:00]. *)
Definition zone_suffix (off : Z) : string :=
  if off =? 0 then "Z"
  else
    let zone := Z.quot off 60 in
    let sign := if zone <? 0 then "-" else "+" in
    let zone := Z.abs zone in
    (sign ++ appendInt (Z.quot zone 60) 2 ++ ":" ++ appendInt (Z.rem zone 60) 2)%string.

(** [t.Format("2006-01-02T15:04:05Z07:00")] *)
Definition Format_RFC3339 (t : Time) : string :=
  let abs := sec t + offset t in
  let dt := date_of_days (abs / secondsPerDay) in
  let clock := abs mod secondsPerDay in
  let hour := clock / 3600 in
  let minute := (clock mod 3600) / 60 in
  let second := clock mod 60 in
  (appendInt (year dt) 4 ++ "-" ++ appendInt (month dt) 2 ++ "-" ++
   appendInt (day dt) 2 ++ "T" ++ appendInt hour 2 ++ ":" ++
   appendInt minute 2 ++ ":" ++ appendInt second 2 ++
   zone_suffix (offset t))%string.

(** The instant of the Unix epoch and of the reference time of the layout,
    used to check the calendar arithmetic. *)
Definition unixEpoch : Time := {| sec := 62135596800; nsec := 0; offset := 0 |}.
Definition layoutTime : Time :=
  {| sec := 62135596800 + 1136239445; nsec := 0; offset := -25200 |}.

End GoTime.

(** ** JSON values

    What [encoding/json] writes for the response structs, as a tree.  A
    struct is an object whose members follow the order of the fields. *)

#[local] Set Warnings "-register-all".

Inductive json : Type :=
  | JNull
  | JBool (b : bool)
  | JNumber (n : Z)
  | JString (s : string)
  | JArray (items : list json)
  | JObject (members : list (string * json)).

(** The value of member [key] of an object; [None] when the member is absent
    or the value is no object. *)
Definition member (key : string) (j : json) : option json :=
  match j with
  | JObject ms => snd <$> List.find (fun m => String.eqb (fst m) key) ms
  | _ => None
  end.

Definition keys (j : json) : list string :=
  match j with
  | JObject ms => fst <$> ms
  | _ => []
  end.

(** A field tagged [omitempty] is left out when it holds the empty value. *)
Definition omitempty_string (key : string) (s : string) : list (string * json) :=
  if String.eqb s "" then [] else [(key, JString s)].

(** A field tagged [,string] holds its number as a JSON string. *)
Definition quoted_int (key : string) (n : Z) : list (string * json) :=
  [(key, JString (FormatInt n))].

(** ** Entities

    [Object] and its ACL rules are declared by the storage backend; the
    builders read the fields below.  [id] is the method [Object.id]. *)

Record ACLRule : Type := mkACLRule {
  Entity : string;
  Role : string
}.

Record Object : Type := mkObject {
  BucketName : string;
  Name : string;
  ContentType : string;
  ContentEncoding : string;
  Crc32c : string;
  Md5Hash : string;
  ACL : list ACLRule;
  Content : list Byte.byte;
  Created : GoTime.Time;
  Deleted : GoTime.Time;
  Updated : GoTime.Time
}.

Record Bucket : Type := mkBucket {
  bucket_Name : string;
  VersioningEnabled : bool
}.

(** [len(x)] as the Go [int] it is. *)
Definition len {A} (x : list A) : Z := Z.of_nat (length x).

(** ** Response structs of [response.go] *)

Record bucketResponse : Type := mkBucketResponse {
  br_Kind : string;
  br_ID : string;
  br_Name : string
}.

(** [storage.ObjectAccessControl] of the API client library; the builders set
    four of its fields and leave the others at their zero value. *)
Record ObjectAccessControl : Type := mkObjectAccessControl {
  oac_Bucket : string;
  oac_Entity : string;
  oac_Object : string;
  oac_Role : string
}.

Record objectResponse : Type := mkObjectResponse {
  or_Kind : string;
  or_Name : string;
  or_ID : string;
  or_Bucket : string;
  or_Size : Z;
  or_ContentType : string;
  or_ContentEncoding : string;
  or_Crc32c : string;
  or_ACL : list (option ObjectAccessControl);   (* []*storage.ObjectAccessControl *)
  or_Md5Hash : string;
  or_TimeCreated : string;
  or_TimeDeleted : string;
  or_Updated : string
}.

(** An element of [Items []interface{}]: [nil] as [make] leaves it, or the
    struct stored there. *)
Inductive item : Type :=
  | ItemNil
  | ItemBucket (b : bucketResponse)
  | ItemObject (o : objectResponse).

Record listResponse : Type := mkListResponse {
  lr_Kind : string;
  lr_Items : list item;
  lr_Prefixes : option (list string)
}.

(** [storage.ObjectAccessControls] of the API client library. *)
Record ObjectAccessControls : Type := mkObjectAccessControls {
  oacs_HTTPStatusCode : Z;
  oacs_Items : list (option ObjectAccessControl);
  oacs_Kind : string
}.

(** [aclListResponse] embeds a pointer, [nil] in the zero value. *)
Record aclListResponse : Type := mkAclListResponse {
  embedded : option ObjectAccessControls
}.

Record rewriteResponse : Type := mkRewriteResponse {
  rw_Kind : string;
  rw_TotalBytesRewritten : Z;
  rw_ObjectSize : Z;
  rw_Done : bool;
  rw_RewriteToken : string;
  rw_Resource : objectResponse
}.

Record apiError : Type := mkApiError {
  ae_Domain : string;
  ae_Reason : string;
  ae_Message : string
}.

Record httpError : Type := mkHttpError {
  he_Code : Z;
  he_Message : string;
  he_Errors : option (list apiError)
}.

Record errorResponse : Type := mkErrorResponse {
  er_Error : httpError
}.

Definition StatusOK : Z := 200.
Definition StatusBadRequest : Z := 400.
Definition StatusNotFound : Z := 404.
Definition StatusInternalServerError : Z := 500.

(** ** Slices and [range] loops *)

(** [make([]T, n)]: [n] zero values. *)
Definition make {A} (zero : A) (n : nat) : list A := replicate n zero.

(** [for i, x := range l { s = body i x s }], started at index [i]. *)
Fixpoint for_range_from {A St} (i : nat) (body : nat -> A -> St -> St)
    (l : list A) (s : St) : St :=
  match l with
  | [] => s
  | x :: l' => for_range_from (S i) body l' (body i x s)
  end.

Definition for_range {A St} (body : nat -> A -> St -> St) (l : list A) (s : St) : St :=
  for_range_from 0 body l s.

(** ** Response builders of [response.go] *)

Definition newBucketResponse (bucketName : string) : bucketResponse :=
  {| br_Kind := "storage#bucket"; br_ID := bucketName; br_Name := bucketName |}.

(** The second component is the caller's slice after the call:
    [sort.Strings(bucketNames)] sorts the backing array that the argument
    shares with the caller. *)
Definition newListBucketsResponse (bucketNames : list string)
    : listResponse * list string :=
  let items := make ItemNil (length bucketNames) in
  let bucketNames := sort_Strings bucketNames in
  let items :=
    for_range (fun i name items => <[i := ItemBucket (newBucketResponse name)]> items)
      bucketNames items in
  ({| lr_Kind := "storage#buckets"; lr_Items := items; lr_Prefixes := None |},
   bucketNames).

Definition getAccessControlsListFromObject (obj : Object)
    : list (option ObjectAccessControl) :=
  let aclItems := make None (length (ACL obj)) in
  for_range
    (fun idx aclRule aclItems =>
       <[idx := Some {| oac_Bucket := BucketName obj;
                        oac_Entity := Entity aclRule;
                        oac_Object := Name obj;
                        oac_Role := Role aclRule |}]> aclItems)
    (ACL obj) aclItems.

Definition newACLListResponse (obj : Object) : aclListResponse :=
  if len (ACL obj) =? 0 then {| embedded := None |}
  else
    let aclItems := getAccessControlsListFromObject obj in
    {| embedded := Some {| oacs_HTTPStatusCode := StatusOK;
                           oacs_Items := aclItems;
                           oacs_Kind := "" |} |}.

(** The [Items] of an ACL list response, reached through the embedded
    pointer; [None] when there is no collection at all. *)
Definition aclItems (r : aclListResponse) : option (list (option ObjectAccessControl)) :=
  oacs_Items <$> embedded r.

Definition newErrorResponse (code : Z) (message : string)
    (errs : option (list apiError)) : errorResponse :=
  {| er_Error := {| he_Code := code; he_Message := message; he_Errors := errs |} |}.

Section ObjectBuilders.

(** [Object.id] is declared with [Object], outside [response.go]. *)
Variable id : Object -> string.

Definition newObjectResponse (obj : Object) : objectResponse :=
  let acl := getAccessControlsListFromObject obj in
  {| or_Kind := "storage#object";
     or_ID := id obj;
     or_Bucket := BucketName obj;
     or_Name := Name obj;
     or_Size := len (Content obj);
     or_ContentType := ContentType obj;
     or_ContentEncoding := ContentEncoding obj;
     or_Crc32c := Crc32c obj;
     or_Md5Hash := Md5Hash obj;
     or_ACL := acl;
     or_TimeCreated := GoTime.Format_RFC3339 (Created obj);
     or_TimeDeleted := GoTime.Format_RFC3339 (Deleted obj);
     or_Updated := GoTime.Format_RFC3339 (Updated obj) |}.

Definition newListObjectsResponse (objs : list Object)
    (prefixes : option (list string)) : listResponse :=
  let items := make ItemNil (length objs) in
  let items :=
    for_range (fun i obj items => <[i := ItemObject (newObjectResponse obj)]> items)
      objs items in
  {| lr_Kind := "storage#objects"; lr_Items := items; lr_Prefixes := prefixes |}.

Definition newObjectRewriteResponse (obj : Object) : rewriteResponse :=
  {| rw_Kind := "storage#rewriteResponse";
     rw_TotalBytesRewritten := len (Content obj);
     rw_ObjectSize := len (Content obj);
     rw_Done := true;
     rw_RewriteToken := "";
     rw_Resource := newObjectResponse obj |}.

End ObjectBuilders.

(** ** The JSON text of the response structs, by their field tags *)

Definition bucketResponse_json (b : bucketResponse) : json :=
  JObject [("kind", JString (br_Kind b)); ("id", JString (br_ID b));
           ("name", JString (br_Name b))].

(** [storage.ObjectAccessControl] marshals its set fields only. *)
Definition ObjectAccessControl_json (a : option ObjectAccessControl) : json :=
  match a with
  | None => JNull
  | Some a =>
      JObject (omitempty_string "bucket" (oac_Bucket a) ++
               omitempty_string "entity" (oac_Entity a) ++
               omitempty_string "object" (oac_Object a) ++
               omitempty_string "role" (oac_Role a))
  end.

Definition omitempty_acl (key : string) (acl : list (option ObjectAccessControl))
    : list (string * json) :=
  match acl with
  | [] => []
  | _ => [(key, JArray (ObjectAccessControl_json <$> acl))]
  end.

Definition objectResponse_json (o : objectResponse) : json :=
  JObject ([("kind", JString (or_Kind o)); ("name", JString (or_Name o));
            ("id", JString (or_ID o)); ("bucket", JString (or_Bucket o))] ++
           quoted_int "size" (or_Size o) ++
           omitempty_string "contentType" (or_ContentType o) ++
           omitempty_string "contentEncoding" (or_ContentEncoding o) ++
           omitempty_string "crc32c" (or_Crc32c o) ++
           omitempty_acl "acl" (or_ACL o) ++
           omitempty_string "md5hash" (or_Md5Hash o) ++
           omitempty_string "timeCreated" (or_TimeCreated o) ++
           omitempty_string "timeDeleted" (or_TimeDeleted o) ++
           omitempty_string "updated" (or_Updated o)).

Definition item_json (i : item) : json :=
  match i with
  | ItemNil => JNull
  | ItemBucket b => bucketResponse_json b
  | ItemObject o => objectResponse_json o
  end.

Definition strings_json (l : option (list string)) : json :=
  match l with
  | None => JNull
  | Some l => JArray (JString <$> l)
  end.

Definition listResponse_json (r : listResponse) : json :=
  JObject [("kind", JString (lr_Kind r)); ("items", JArray (item_json <$> lr_Items r));
           ("prefixes", strings_json (lr_Prefixes r))].

Definition rewriteResponse_json (r : rewriteResponse) : json :=
  JObject ([("kind", JString (rw_Kind r))] ++
           quoted_int "totalBytesRewritten" (rw_TotalBytesRewritten r) ++
           quoted_int "objectSize" (rw_ObjectSize r) ++
           [("done", JBool (rw_Done r)); ("rewriteToken", JString (rw_RewriteToken r));
            ("resource", objectResponse_json (rw_Resource r))]).

Definition apiError_json (e : apiError) : json :=
  JObject [("domain", JString (ae_Domain e)); ("reason", JString (ae_Reason e));
           ("message", JString (ae_Message e))].

Definition apiErrors_json (l : option (list apiError)) : json :=
  match l with
  | None => JNull
  | Some l => JArray (apiError_json <$> l)
  end.

Definition httpError_json (e : httpError) : json :=
  JObject [("code", JNumber (he_Code e)); ("message", JString (he_Message e));
           ("errors", apiErrors_json (he_Errors e))].

Definition errorResponse_json (e : errorResponse) : json :=
  JObject [("error", httpError_json (er_Error e))].

(** ** Errors, results and panics *)

Inductive ErrorKind : Type := NotFound | Conflict | InvalidArgument | Internal.

(** A Go [error] value: its kind and the text of [Error()]. *)
Record error : Type := mkError {
  kind : ErrorKind;
  Error : string
}.

(** A Go [(value, error)] pair with [err != nil] tested first. *)
Inductive result (A : Type) : Type :=
  | Ok (a : A)
  | Err (e : error).
Arguments Ok {A} a.
Arguments Err {A} e.

(** How a call ends: it returns, or [panic(err)] unwinds the goroutine. *)
Inductive outcome (A : Type) : Type :=
  | Returns (a : A)
  | Panics (e : error).
Arguments Returns {A} a.
Arguments Panics {A} e.

Definition panics {A} (o : outcome A) : bool :=
  match o with
  | Returns _ => false
  | Panics _ => true
  end.

(** ** The storage backend, as the handlers use it

    The backend is declared outside these files.  The handlers call three of
    its operations; [St] is the state of the store, which [CreateBucket] may
    change. *)

Record Backend (St : Type) : Type := mkBackend {
  backend_CreateBucket : string -> bool -> St -> option error * St;
  backend_ListBuckets : St -> result (list string);
  backend_GetBucket : string -> St -> result Bucket
}.
Arguments backend_CreateBucket {St} _ _ _ _.
Arguments backend_ListBuckets {St} _ _.
Arguments backend_GetBucket {St} _ _ _.

(** ** [http.ResponseWriter] *)

(** What a handler writes to the body: a line of text ([fmt.Fprintln]) or a
    JSON value followed by a newline ([json.Encoder.Encode]). *)
Inductive chunk : Type :=
  | TextLine (s : string)
  | JsonLine (j : json).

Record ResponseWriter : Type := mkResponseWriter {
  w_header : gmap string string;
  w_status : option Z;                 (* [None]: header not written yet *)
  w_body : list chunk
}.

Definition newResponseWriter : ResponseWriter :=
  {| w_header := ∅; w_status := None; w_body := [] |}.

Definition Header_Set (k v : string) (w : ResponseWriter) : ResponseWriter :=
  {| w_header := <[k := v]> (w_header w); w_status := w_status w; w_body := w_body w |}.

(** The first [WriteHeader] fixes the status; a later one is ignored. *)
Definition WriteHeader (code : Z) (w : ResponseWriter) : ResponseWriter :=
  match w_status w with
  | Some _ => w
  | None => {| w_header := w_header w; w_status := Some code; w_body := w_body w |}
  end.

(** [Write] sends status 200 first when no header was written. *)
Definition Write (c : chunk) (w : ResponseWriter) : ResponseWriter :=
  let w := WriteHeader StatusOK w in
  {| w_header := w_header w; w_status := w_status w; w_body := (w_body w ++ [c])%list |}.

(** [http.Error(w, error, code)] *)
Definition http_Error (msg : string) (code : Z) (w : ResponseWriter) : ResponseWriter :=
  let w := Header_Set "Content-Type" "text/plain; charset=utf-8" w in
  let w := Header_Set "X-Content-Type-Options" "nosniff" w in
  let w := WriteHeader code w in
  Write (TextLine msg) w.

(** [json.NewEncoder(w).Encode(v)], [v] given by its JSON value. *)
Definition Encode (j : json) (w : ResponseWriter) : ResponseWriter :=
  Write (JsonLine j) w.

(** ** The bucket handlers *)

(** What [decoder.Decode(&data)] leaves for the request body: an error, or
    the [name] and the optional [versioning.enabled] of the body. *)
Inductive decoded : Type :=
  | DecodeError (e : error)
  | Decoded (name : string) (versioning : option bool).

Section Server.

Context {St : Type}.
Variable backend : Backend St.

(** [Server.CreateBucket]: "this method does nothing but panics if props
    differs". *)
Definition Server_CreateBucket (name : string) (versioningEnabled : bool)
    (s : St) : outcome St :=
  match backend_CreateBucket backend name versioningEnabled s with
  | (Some err, _) => Panics err
  | (None, s') => Returns s'
  end.

(** [createBucketByPost].  The handler passes [name] and [versioning] to
    [newBucketResponse]; the builder of [response.go] has the one parameter
    [bucketName], so the flag does not reach the response. *)
Definition createBucketByPost (body : decoded) (w : ResponseWriter) (s : St)
    : ResponseWriter * St :=
  match body with
  | DecodeError err => (http_Error (Error err) StatusBadRequest w, s)
  | Decoded name data_Versioning =>
      let versioning :=
        match data_Versioning with
        | Some enabled => enabled
        | None => false
        end in
      match backend_CreateBucket backend name versioning s with
      | (Some err, s') => (http_Error (Error err) StatusInternalServerError w, s')
      | (None, s') =>
          let resp := newBucketResponse name in
          (Encode (bucketResponse_json resp) w, s')
      end
  end.

(** [listBuckets].  The slice [buckets] is the handler's own; what
    [newListBucketsResponse] leaves in it is dropped. *)
Definition listBuckets (w : ResponseWriter) (s : St) : ResponseWriter :=
  match backend_ListBuckets backend s with
  | Err err => http_Error (Error err) StatusInternalServerError w
  | Ok buckets =>
      let resp := fst (newListBucketsResponse buckets) in
      Encode (listResponse_json resp) w
  end.

(** [getBucket]; [bucketName] is [mux.Vars(r)["bucketName"]].  Of the
    bucket found, the name reaches the response. *)
Definition getBucket (bucketName : string) (w : ResponseWriter) (s : St)
    : ResponseWriter :=
  match backend_GetBucket backend bucketName s with
  | Err _ =>
      let w := WriteHeader StatusNotFound w in
      let err := newErrorResponse StatusNotFound "Not found" None in
      Encode (errorResponse_json err) w
  | Ok bucket =>
      let resp := newBucketResponse (bucket_Name bucket) in
      let w := WriteHeader StatusOK w in
      Encode (bucketResponse_json resp) w
  end.

End Server.

(** ** An in-memory backend

    A backend over a table from bucket names to versioning flags, to run the
    handlers on. *)

Module MemoryBackend.

(** Modelled from the spec: the text of the backend's Conflict error, which
    the backend (outside these files) builds. *)
Definition conflict (name : string) : error :=
  {| kind := Conflict;
     Error := ("bucket " ++ name ++ " exists with different properties")%string |}.

(** Modelled from the spec: the backend's NotFound error. *)
Definition notFound (name : string) : error :=
  {| kind := NotFound; Error := ("bucket " ++ name ++ " not found")%string |}.

(** Modelled from the spec: the backend's [CreateBucket], which lives
    outside these files.  The bucket is created if absent; creating it
    again with the same versioning flag is a no-op; with a differing flag
    it is a Conflict and the table is unchanged. *)
Definition CreateBucket (name : string) (versioningEnabled : bool)
    (s : gmap string bool) : option error * gmap string bool :=
  match s !! name with
  | None => (None, <[name := versioningEnabled]> s)
  | Some v =>
      if Bool.eqb v versioningEnabled then (None, s) else (Some (conflict name), s)
  end.

(** Modelled from the spec: the backend's [ListBuckets], which returns the
    names of all buckets in ascending order. *)
Definition ListBuckets (s : gmap string bool) : result (list string) :=
  Ok (sort_Strings (fst <$> map_to_list s)).

(** Modelled from the spec: the backend's [GetBucket], which fails with
    NotFound when the name is absent. *)
Definition GetBucket (name : string) (s : gmap string bool) : result Bucket :=
  match s !! name with
  | Some v => Ok {| bucket_Name := name; VersioningEnabled := v |}
  | None => Err (notFound name)
  end.

Definition backend : Backend (gmap string bool) :=
  {| backend_CreateBucket := CreateBucket;
     backend_ListBuckets := ListBuckets;
     backend_GetBucket := GetBucket |}.

End MemoryBackend.

(** ** The builders' results, element by element *)

Definition bucketItem (name : string) : item := ItemBucket (newBucketResponse name).

Definition accessControl (obj : Object) (aclRule : ACLRule) : option ObjectAccessControl :=
  Some {| oac_Bucket := BucketName obj; oac_Entity := Entity aclRule;
          oac_Object := Name obj; oac_Role := Role aclRule |}.

(** ** Sample values *)

Definition sampleObject : Object :=
  {| BucketName := "some-bucket"; Name := "files/txt/text-01.txt";
     ContentType := "text/plain"; ContentEncoding := ""; Crc32c := ""; Md5Hash := "";
     ACL := [ {| Entity := "user-1"; Role := "OWNER" |};
              {| Entity := "allUsers"; Role := "READER" |} ];
     Content := [Byte.x61; Byte.x62; Byte.x63];
     Created := GoTime.unixEpoch; Deleted := GoTime.zero; Updated := GoTime.layoutTime |}.

Definition emptyACLObject : Object :=
  {| BucketName := "some-bucket"; Name := "img/hi-res/party-01.jpg";
     ContentType := ""; ContentEncoding := ""; Crc32c := ""; Md5Hash := "";
     ACL := []; Content := [];
     Created := GoTime.zero; Deleted := GoTime.zero; Updated := GoTime.zero |}.

Definition sampleId (obj : Object) : string :=
  (BucketName obj ++ "/" ++ Name obj)%string.

Definition objectOfSize (n : nat) : Object :=
  {| BucketName := "some-bucket"; Name := "src";
     ContentType := "application/octet-stream"; ContentEncoding := "";
     Crc32c := ""; Md5Hash := ""; ACL := [];
     Content := replicate n Byte.x00;
     Created := GoTime.unixEpoch; Deleted := GoTime.zero; Updated := GoTime.unixEpoch |}.

Definition oneBucket : gmap string bool := {[ "b" := false ]}.

(** ** The members of an object response, in the order of the fields *)

Definition objectKeys : list string :=
  ["kind"; "name"; "id"; "bucket"; "size"; "contentType"; "contentEncoding";
   "crc32c"; "acl"; "md5hash"; "timeCreated"; "timeDeleted"; "updated"].

(** ** Reading a response *)


(** A backend that lists the given names, in the given order, and holds no
    bucket to get or to collide with; its store has no state. *)
Definition listingBackend (names : list string) : Backend unit :=
  {| backend_CreateBucket := fun _ _ s => (None, s);
     backend_ListBuckets := fun _ => Ok names;
     backend_GetBucket := fun name _ => Err {| kind := NotFound; Error := "not found" |} |}.

(** * Properties *)

(** ** The order on strings *)

Section StringOrder.

Import GoString.

Lemma ascii_compare_refl (a : ascii) : Ascii.compare a a = Eq.
Proof. unfold Ascii.compare. apply N.compare_refl. Qed.

Lemma ascii_compare_lt_trans (a b c : ascii) :
  Ascii.compare a b = Lt -> Ascii.compare b c = Lt -> Ascii.compare a c = Lt.
Proof.
  unfold Ascii.compare. rewrite !N.compare_lt_iff. apply N.lt_trans.
Qed.

Lemma compare_lt_trans (s1 : string) :
  forall s2 s3, String.compare s1 s2 = Lt -> String.compare s2 s3 = Lt ->
                String.compare s1 s3 = Lt.
Proof.
  induction s1 as [|a s1 IH]; intros [|b s2] [|c s3]; simpl; try congruence.
  destruct (Ascii.compare a b) eqn:Hab; try discriminate.
  - apply Ascii.compare_eq_iff in Hab as ->.
    destruct (Ascii.compare b c); try congruence. apply IH.
  - intros _. destruct (Ascii.compare b c) eqn:Hbc; try discriminate.
    + apply Ascii.compare_eq_iff in Hbc as <-. now rewrite Hab.
    + now rewrite (ascii_compare_lt_trans _ _ _ Hab Hbc).
Qed.

Lemma leb_spec (s1 s2 : string) :
  String.leb s1 s2 = true <-> String.compare s1 s2 = Lt \/ s1 = s2.
Proof.
  unfold String.leb. split.
  - destruct (String.compare s1 s2) eqn:H; try discriminate; auto.
    right. now apply String.compare_eq_iff.
  - intros [-> | ->]; [done|].
    assert (String.compare s2 s2 = Eq) as ->; [|done].
    induction s2 as [|a s IH]; simpl; [done|]. now rewrite ascii_compare_refl.
Qed.

#[global] Instance le_refl : Reflexive le.
Proof. intros s. apply leb_spec. now right. Qed.

#[global] Instance le_trans : Transitive le.
Proof.
  intros s1 s2 s3. unfold le. rewrite !leb_spec.
  intros [H12 | ->] [H23 | ->]; eauto using compare_lt_trans.
Qed.

#[global] Instance le_antisym : AntiSymm (=) le.
Proof. intros s1 s2. apply String.leb_antisym. Qed.

Lemma less_le (x y : string) : less x y = true -> le x y.
Proof.
  unfold less, le, String.ltb, String.leb. now destruct (String.compare x y).
Qed.

Lemma not_less_le (x y : string) : less x y = false -> le y x.
Proof.
  unfold less, le, String.ltb, String.leb. rewrite (String.compare_antisym x y).
  now destruct (String.compare y x).
Qed.

End StringOrder.

(** ** [sort.Strings] meets its contract, and the contract fixes the result *)

Lemma insert_sorted_perm (x : string) (l : list string) :
  insert_sorted x l ≡ₚ x :: l.
Proof.
  induction l as [|y l IH]; simpl; [done|].
  destruct (GoString.less x y); [done|]. rewrite IH. apply Permutation_swap.
Qed.

Lemma insert_sorted_sorted (x : string) (l : list string) :
  Sorted GoString.le l -> Sorted GoString.le (insert_sorted x l).
Proof.
  induction l as [|y l IH]; simpl; intros Hs.
  - repeat constructor.
  - destruct (GoString.less x y) eqn:Hxy.
    + constructor; [done|]. constructor. now apply less_le.
    + apply Sorted_inv in Hs as [Hs Hhd]. constructor; [auto|].
      destruct l as [|z l]; simpl.
      * constructor. now apply not_less_le.
      * destruct (GoString.less x z); constructor.
        -- now apply not_less_le.
        -- now inversion Hhd.
Qed.

Lemma sort_Strings_perm (l : list string) : sort_Strings l ≡ₚ l.
Proof.
  induction l as [|x l IH]; simpl; [done|].
  rewrite insert_sorted_perm. now rewrite IH.
Qed.

Lemma sort_Strings_sorted (l : list string) : Sorted GoString.le (sort_Strings l).
Proof.
  induction l as [|x l IH]; simpl; [constructor|]. now apply insert_sorted_sorted.
Qed.

(** Whatever method sorts the slice, it ends with these contents. *)
Lemma sort_Strings_unique (l l' : list string) :
  l' ≡ₚ l -> Sorted GoString.le l' -> l' = sort_Strings l.
Proof.
  intros Hp Hs. apply (Sorted_unique GoString.le); [done|apply sort_Strings_sorted|].
  rewrite Hp. symmetry. apply sort_Strings_perm.
Qed.

Lemma sort_Strings_fixed (l : list string) :
  sort_Strings l = l <-> Sorted GoString.le l.
Proof.
  split.
  - intros <-. apply sort_Strings_sorted.
  - intros Hs. symmetry. now apply sort_Strings_unique.
Qed.

Lemma sort_Strings_order_irrelevant (l l' : list string) :
  l ≡ₚ l' -> sort_Strings l = sort_Strings l'.
Proof.
  intros Hp. apply sort_Strings_unique; [|apply sort_Strings_sorted].
  rewrite sort_Strings_perm. done.
Qed.

Lemma sort_Strings_length (l : list string) : length (sort_Strings l) = length l.
Proof. apply Permutation_length, sort_Strings_perm. Qed.

(** ** A [range] loop that fills a made slice *)

Lemma for_range_fill_from {A B} (f : A -> B) (l : list A) :
  forall (i : nat) (items : list B),
    length items = (i + length l)%nat ->
    for_range_from i (fun i x items => <[i := f x]> items) l items
    = (take i items ++ (f <$> l))%list.
Proof.
  induction l as [|x l IH]; intros i items Hlen; simpl in *.
  - rewrite app_nil_r, take_ge; [done|lia].
  - rewrite IH by (rewrite length_insert; lia).
    assert (i < length items)%nat as Hi by lia.
    rewrite (take_S_r _ _ (f x)) by (apply list_lookup_insert_eq; done).
    rewrite take_insert_ge by lia.
    now rewrite <- app_assoc.
Qed.

Lemma for_range_fill {A B} (f : A -> B) (zero : B) (l : list A) :
  for_range (fun i x items => <[i := f x]> items) l (make zero (length l))
  = f <$> l.
Proof.
  unfold for_range. rewrite for_range_fill_from; [done|].
  unfold make. now rewrite length_replicate.
Qed.

(** ** The builders, loop-free *)

Lemma newListBucketsResponse_items (bucketNames : list string) :
  lr_Items (fst (newListBucketsResponse bucketNames))
  = bucketItem <$> sort_Strings bucketNames.
Proof.
  unfold newListBucketsResponse; simpl.
  rewrite <- (sort_Strings_length bucketNames).
  apply (for_range_fill bucketItem).
Qed.

Lemma newListBucketsResponse_slice (bucketNames : list string) :
  snd (newListBucketsResponse bucketNames) = sort_Strings bucketNames.
Proof. reflexivity. Qed.

Lemma getAccessControlsListFromObject_map (obj : Object) :
  getAccessControlsListFromObject obj = accessControl obj <$> ACL obj.
Proof. apply (for_range_fill (accessControl obj)). Qed.

Lemma newListObjectsResponse_items (id : Object -> string) (objs : list Object)
    (prefixes : option (list string)) :
  lr_Items (newListObjectsResponse id objs prefixes)
  = (fun obj => ItemObject (newObjectResponse id obj)) <$> objs.
Proof. apply (for_range_fill (fun obj => ItemObject (newObjectResponse id obj))). Qed.

(** ** Bucket listing *)



(** ** The argument slice of [newListBucketsResponse] *)




(** ** Access-control lists *)

(** C10: the ACL conversion keeps length and order: the result has one entry
    per ACL rule of the object, and its i-th entry carries the entity and
    role of the i-th rule with the object's bucket name and object name. *)
Theorem acl_conversion_pointwise (obj : Object) :
  length (getAccessControlsListFromObject obj) = length (ACL obj)
  /\ (forall (i : nat) (aclRule : ACLRule),
        ACL obj !! i = Some aclRule ->
        getAccessControlsListFromObject obj !! i
        = Some (Some {| oac_Bucket := BucketName obj; oac_Entity := Entity aclRule;
                        oac_Object := Name obj; oac_Role := Role aclRule |}))
  /\ getAccessControlsListFromObject obj = accessControl obj <$> ACL obj.
Proof.
  rewrite getAccessControlsListFromObject_map.
  split; [apply length_fmap|].
  split; [|reflexivity].
  intros i aclRule Hi. rewrite list_lookup_fmap, Hi. reflexivity.
Qed.

Lemma acl_conversion_pointwise_witness :
  ACL sampleObject !! 1%nat = Some {| Entity := "allUsers"; Role := "READER" |}
  /\ getAccessControlsListFromObject sampleObject !! 1%nat
     = Some (Some {| oac_Bucket := "some-bucket"; oac_Entity := "allUsers";
                     oac_Object := "files/txt/text-01.txt"; oac_Role := "READER" |}).
Proof.
  split; [reflexivity|].
  destruct (acl_conversion_pointwise sampleObject) as (_ & Hi & _).
  apply (Hi 1%nat {| Entity := "allUsers"; Role := "READER" |}). reflexivity.
Defined.



(** ** Sizes and timestamps of the object response *)

(** [FormatInt] writes the decimal numeral of its argument: reading the
    text back gives the number. *)
Lemma FormatInt_parses (n : Z) :
  Z.of_int <$> NilZero.int_of_string (FormatInt n) = Some n.
Proof.
  unfold FormatInt. rewrite NilZero.isi.
  - simpl. now rewrite DecimalZ.of_to.
  - destruct n; simpl; try discriminate.
    intros [= H]. now apply Unsigned.to_uint_nonnil in H.
  - destruct n; simpl; try discriminate.
    intros [= H]. now apply Unsigned.to_uint_nonnil in H.
Qed.

Ltac omitted_or_not :=
  unfold omitempty_string, omitempty_acl;
  repeat match goal with
         | |- context [String.eqb ?s ""] => destruct (String.eqb s "")
         | |- context [match ?l with [] => _ | _ :: _ => _ end] => destruct l
         end.

Lemma member_size (o : objectResponse) :
  member "size" (objectResponse_json o) = Some (JString (FormatInt (or_Size o))).
Proof. reflexivity. Qed.

Lemma member_timeCreated (o : objectResponse) :
  member "timeCreated" (objectResponse_json o)
  = if String.eqb (or_TimeCreated o) "" then None else Some (JString (or_TimeCreated o)).
Proof. unfold objectResponse_json. omitted_or_not; reflexivity. Qed.

Lemma member_timeDeleted (o : objectResponse) :
  member "timeDeleted" (objectResponse_json o)
  = if String.eqb (or_TimeDeleted o) "" then None else Some (JString (or_TimeDeleted o)).
Proof. unfold objectResponse_json. omitted_or_not; reflexivity. Qed.

Lemma member_updated (o : objectResponse) :
  member "updated" (objectResponse_json o)
  = if String.eqb (or_Updated o) "" then None else Some (JString (or_Updated o)).
Proof. unfold objectResponse_json. omitted_or_not; reflexivity. Qed.

Section ObjectResponses.

Variable id : Object -> string.

(** C7: the single-object response writes [size] as a JSON string holding
    the decimal numeral of the length of the content, never as a JSON
    number; content of length 1024 gives ["1024"]. *)
Theorem object_size_is_decimal_string (obj : Object) :
  let body := objectResponse_json (newObjectResponse id obj) in
  member "size" body = Some (JString (FormatInt (len (Content obj))))
  /\ Z.of_int <$> NilZero.int_of_string (FormatInt (len (Content obj)))
     = Some (Z.of_nat (length (Content obj)))
  /\ (forall n : Z, member "size" body <> Some (JNumber n))
  /\ (length (Content obj) = 1024%nat -> member "size" body = Some (JString "1024")).
Proof.
  cbv zeta. rewrite member_size. simpl or_Size.
  split; [reflexivity|].
  split; [apply FormatInt_parses|].
  split; [congruence|].
  unfold len. now intros ->.
Qed.

(** C6: the rewrite response has [totalBytesRewritten] and [objectSize]
    both equal to the decimal numeral of the length of the content, as
    JSON strings, [done] true, [rewriteToken] empty and [resource] the
    single-object response; content of length 500 gives ["500"] twice. *)
Theorem rewrite_response_shape (obj : Object) :
  let resp := newObjectRewriteResponse id obj in
  let body := rewriteResponse_json resp in
  let size := JString (FormatInt (len (Content obj))) in
  member "totalBytesRewritten" body = Some size
  /\ member "objectSize" body = Some size
  /\ member "done" body = Some (JBool true)
  /\ member "rewriteToken" body = Some (JString "")
  /\ member "resource" body = Some (objectResponse_json (newObjectResponse id obj))
  /\ member "kind" body = Some (JString "storage#rewriteResponse")
  /\ rw_Resource resp = newObjectResponse id obj
  /\ (length (Content obj) = 500%nat ->
      member "totalBytesRewritten" body = Some (JString "500")
      /\ member "objectSize" body = Some (JString "500")
      /\ member "done" body = Some (JBool true)).
Proof.
  cbv zeta. do 7 (split; [reflexivity|]).
  intros H. unfold rewriteResponse_json, newObjectRewriteResponse, len; simpl.
  rewrite H. repeat split.
Qed.

(** C9: a zero [Deleted] time is still rendered: the single-object
    response carries [timeDeleted] equal to ["0001-01-01T00:00:00Z"],
    which is not empty and hence not omitted; likewise [timeCreated] and
    [updated] for a zero [Created] and [Updated]. *)
Theorem zero_times_are_rendered (obj : Object) :
  let resp := newObjectResponse id obj in
  let body := objectResponse_json resp in
  (Deleted obj = GoTime.zero ->
     or_TimeDeleted resp = "0001-01-01T00:00:00Z"
     /\ member "timeDeleted" body = Some (JString "0001-01-01T00:00:00Z"))
  /\ (Created obj = GoTime.zero ->
        or_TimeCreated resp = "0001-01-01T00:00:00Z"
        /\ member "timeCreated" body = Some (JString "0001-01-01T00:00:00Z"))
  /\ (Updated obj = GoTime.zero ->
        or_Updated resp = "0001-01-01T00:00:00Z"
        /\ member "updated" body = Some (JString "0001-01-01T00:00:00Z")).
Proof.
  cbv zeta.
  rewrite member_timeDeleted, member_timeCreated, member_updated.
  simpl or_TimeDeleted; simpl or_TimeCreated; simpl or_Updated.
  split; [|split]; intros ->; split; reflexivity.
Qed.

End ObjectResponses.

Lemma object_size_is_decimal_string_witness :
  length (Content (objectOfSize 1024)) = 1024%nat
  /\ member "size" (objectResponse_json (newObjectResponse sampleId (objectOfSize 1024)))
     = Some (JString "1024").
Proof.
  split; [reflexivity|].
  destruct (object_size_is_decimal_string sampleId (objectOfSize 1024)) as (_ & _ & _ & H).
  apply H. reflexivity.
Defined.

Lemma rewrite_response_shape_witness :
  length (Content (objectOfSize 500)) = 500%nat
  /\ member "totalBytesRewritten"
       (rewriteResponse_json (newObjectRewriteResponse sampleId (objectOfSize 500)))
     = Some (JString "500")
  /\ member "objectSize"
       (rewriteResponse_json (newObjectRewriteResponse sampleId (objectOfSize 500)))
     = Some (JString "500")
  /\ member "done"
       (rewriteResponse_json (newObjectRewriteResponse sampleId (objectOfSize 500)))
     = Some (JBool true).
Proof.
  split; [reflexivity|].
  destruct (rewrite_response_shape sampleId (objectOfSize 500))
    as (_ & _ & _ & _ & _ & _ & _ & H).
  apply H. reflexivity.
Defined.

Lemma zero_times_are_rendered_witness :
  (Deleted emptyACLObject = GoTime.zero
   /\ member "timeDeleted" (objectResponse_json (newObjectResponse sampleId emptyACLObject))
      = Some (JString "0001-01-01T00:00:00Z"))
  /\ (Created emptyACLObject = GoTime.zero
      /\ member "timeCreated" (objectResponse_json (newObjectResponse sampleId emptyACLObject))
         = Some (JString "0001-01-01T00:00:00Z"))
  /\ (Updated emptyACLObject = GoTime.zero
      /\ member "updated" (objectResponse_json (newObjectResponse sampleId emptyACLObject))
         = Some (JString "0001-01-01T00:00:00Z")).
Proof.
  destruct (zero_times_are_rendered sampleId emptyACLObject) as (Hd & Hc & Hu).
  split; [|split]; (split; [reflexivity|]).
  - apply Hd. reflexivity.
  - apply Hc. reflexivity.
  - apply Hu. reflexivity.
Defined.

(** ** What the handlers answer *)

Section Handlers.

Context {St : Type}.
Variable backend : Backend St.

Lemma http_Error_fresh (msg : string) (code : Z) :
  w_status (http_Error msg code newResponseWriter) = Some code
  /\ w_body (http_Error msg code newResponseWriter) = [TextLine msg]
  /\ w_header (http_Error msg code newResponseWriter) !! "Content-Type"
     = Some "text/plain; charset=utf-8".
Proof.
  unfold http_Error, Write, WriteHeader, Header_Set; simpl.
  split; [reflexivity|]. split; [reflexivity|].
  rewrite lookup_insert_ne by discriminate. apply lookup_insert_eq.
Qed.



(** C1, as the code has it: an error of the backend's [CreateBucket] (the
    Conflict of a bucket present with a differing flag is one) is an
    ordinary value to the POST handler, which answers 500 with the text of
    the error and returns; the public [Server.CreateBucket] panics with
    that error, and returns normally when the backend reports none. *)
Theorem CreateBucket_error_handling (name : string) (versioningEnabled : bool) (s : St) :
  (forall (err : error) (s' : St),
      backend_CreateBucket backend name versioningEnabled s = (Some err, s') ->
      Server_CreateBucket backend name versioningEnabled s = Panics err
      /\ exists w,
          createBucketByPost backend (Decoded name (Some versioningEnabled))
            newResponseWriter s = (w, s')
          /\ w_status w = Some StatusInternalServerError
          /\ w_body w = [TextLine (Error err)])
  /\ (forall s' : St,
        backend_CreateBucket backend name versioningEnabled s = (None, s') ->
        Server_CreateBucket backend name versioningEnabled s = Returns s'
        /\ createBucketByPost backend (Decoded name (Some versioningEnabled))
             newResponseWriter s
           = (Encode (bucketResponse_json (newBucketResponse name)) newResponseWriter, s')).
Proof.
  split.
  - intros err s' H. unfold Server_CreateBucket, createBucketByPost. rewrite H.
    split; [reflexivity|]. eexists. split; [reflexivity|].
    split; apply http_Error_fresh.
  - intros s' H. unfold Server_CreateBucket, createBucketByPost. now rewrite H.
Qed.

(** C8: when the backend has no bucket of the requested name, so that its
    [GetBucket] fails, the get-bucket handler answers status 404 with the
    error envelope alone: [code] 404, the non-empty [message] "Not found",
    and none of the members of a bucket response. *)
Theorem getBucket_not_found (bucketName : string) (s : St) (e : error) :
  backend_GetBucket backend bucketName s = Err e ->
  let w := getBucket backend bucketName newResponseWriter s in
  let envelope := errorResponse_json (newErrorResponse StatusNotFound "Not found" None) in
  w_status w = Some 404
  /\ w_body w = [JsonLine envelope]
  /\ (exists err message,
        member "error" envelope = Some err
        /\ member "code" err = Some (JNumber 404)
        /\ member "message" err = Some (JString message)
        /\ message <> ""
        /\ member "errors" err = Some JNull)
  /\ keys envelope = ["error"]
  /\ (forall k, k ∈ keys (bucketResponse_json (newBucketResponse bucketName)) ->
                k ∉ keys envelope).
Proof.
  intros H. cbv zeta. unfold getBucket. rewrite H.
  split; [reflexivity|]. split; [reflexivity|].
  split.
  { exists (httpError_json (er_Error (newErrorResponse StatusNotFound "Not found" None))).
    exists "Not found". do 3 (split; [reflexivity|]). split; [discriminate|reflexivity]. }
  split; [reflexivity|].
  simpl. intros k Hk Herr.
  apply list_elem_of_singleton in Herr as ->.
  do 3 (apply elem_of_cons in Hk as [Hk|Hk]; [discriminate Hk|]).
  now apply elem_of_nil in Hk.
Qed.

End Handlers.

(** ** The handlers on the in-memory backend *)

Lemma CreateBucket_error_handling_witness :
  (backend_CreateBucket MemoryBackend.backend "b" true oneBucket
   = (Some (MemoryBackend.conflict "b"), oneBucket)
   /\ Server_CreateBucket MemoryBackend.backend "b" true oneBucket
      = Panics (MemoryBackend.conflict "b"))
  /\ (backend_CreateBucket MemoryBackend.backend "b" false oneBucket = (None, oneBucket)
      /\ Server_CreateBucket MemoryBackend.backend "b" false oneBucket = Returns oneBucket).
Proof.
  split; (split; [reflexivity|]).
  - destruct (CreateBucket_error_handling MemoryBackend.backend "b" true oneBucket)
      as [Herr _].
    apply (Herr (MemoryBackend.conflict "b") oneBucket). reflexivity.
  - destruct (CreateBucket_error_handling MemoryBackend.backend "b" false oneBucket)
      as [_ Hok].
    apply (Hok oneBucket). reflexivity.
Defined.

(** C1, as stated, fails: with bucket "b" present and unversioned, asking
    [Server.CreateBucket] for "b" with versioning enabled panics with the
    backend's Conflict. *)
Lemma Server_CreateBucket_panics_on_conflict :
  oneBucket !! "b" = Some false
  /\ fst (backend_CreateBucket MemoryBackend.backend "b" true oneBucket)
     = Some (MemoryBackend.conflict "b")
  /\ Server_CreateBucket MemoryBackend.backend "b" true oneBucket
     = Panics (MemoryBackend.conflict "b")
  /\ ~ (forall (name : string) (versioningEnabled : bool) (s : gmap string bool),
          panics (Server_CreateBucket MemoryBackend.backend name versioningEnabled s)
          = false).
Proof.
  split; [reflexivity|]. split; [reflexivity|]. split; [reflexivity|].
  intros H. specialize (H "b" true oneBucket). discriminate H.
Qed.

Lemma getBucket_not_found_witness :
  backend_GetBucket MemoryBackend.backend "missing" oneBucket
  = Err (MemoryBackend.notFound "missing")
  /\ w_status (getBucket MemoryBackend.backend "missing" newResponseWriter oneBucket)
     = Some 404
  /\ w_body (getBucket MemoryBackend.backend "missing" newResponseWriter oneBucket)
     = [JsonLine (errorResponse_json (newErrorResponse StatusNotFound "Not found" None))].
Proof.
  split; [reflexivity|].
  destruct (getBucket_not_found MemoryBackend.backend "missing" oneBucket
              (MemoryBackend.notFound "missing") eq_refl) as (Hs & Hb & _).
  split; [exact Hs|exact Hb].
Defined.

(** C2 on the code: the failures of [createBucketByPost] do not go through
    [newErrorResponse].  A body that fails to decode is answered with status
    400 and the decoder's message as a line of plain text; a Conflict of the
    backend with status 500 and the text of the error.  Neither body is an
    error envelope, as the body of [getBucket] for a missing bucket is. *)
Theorem createBucketByPost_failures_are_plain_text :
  let malformed := DecodeError {| kind := InvalidArgument; Error := "unexpected EOF" |} in
  let w := fst (createBucketByPost MemoryBackend.backend malformed newResponseWriter ∅) in
  let w' := fst (createBucketByPost MemoryBackend.backend (Decoded "b" (Some true))
                   newResponseWriter oneBucket) in
  (w_status w = Some 400
   /\ w_body w = [TextLine "unexpected EOF"]
   /\ w_header w !! "Content-Type" = Some "text/plain; charset=utf-8"
   /\ forall e : errorResponse, w_body w <> [JsonLine (errorResponse_json e)])
  /\ (w_status w' = Some 500
      /\ w_body w' = [TextLine "bucket b exists with different properties"]
      /\ forall e : errorResponse, w_body w' <> [JsonLine (errorResponse_json e)])
  /\ w_body (getBucket MemoryBackend.backend "missing" newResponseWriter oneBucket)
     = [JsonLine (errorResponse_json (newErrorResponse StatusNotFound "Not found" None))].
Proof.
  cbv zeta. repeat split; try reflexivity; intros e; discriminate.
Qed.

(** ** Checks on concrete values *)

Example sort_Strings_example :
  sort_Strings ["zeta"; "alpha"; "mid"; "Zeta"; "alpha"; ""]
  = [""; "Zeta"; "alpha"; "alpha"; "mid"; "zeta"].
Proof. reflexivity. Qed.

Example Format_RFC3339_examples :
  GoTime.Format_RFC3339 GoTime.zero = "0001-01-01T00:00:00Z"
  /\ GoTime.Format_RFC3339 GoTime.unixEpoch = "1970-01-01T00:00:00Z"
  /\ GoTime.Format_RFC3339 GoTime.layoutTime = "2006-01-02T15:04:05-07:00"
  /\ GoTime.Format_RFC3339
       {| GoTime.sec := 62135596800 + 951782400; GoTime.nsec := 0; GoTime.offset := 19800 |}
     = "2000-02-29T05:30:00+05:30".
Proof. repeat split. Qed.

Example FormatInt_examples :
  FormatInt 0 = "0" /\ FormatInt 500 = "500" /\ FormatInt 1024 = "1024"
  /\ FormatInt (-12) = "-12".
Proof. repeat split. Qed.

Example sampleObject_json :
  objectResponse_json (newObjectResponse sampleId sampleObject)
  = JObject
      [("kind", JString "storage#object"); ("name", JString "files/txt/text-01.txt");
       ("id", JString "some-bucket/files/txt/text-01.txt");
       ("bucket", JString "some-bucket"); ("size", JString "3");
       ("contentType", JString "text/plain");
       ("acl", JArray
          [JObject [("bucket", JString "some-bucket"); ("entity", JString "user-1");
                    ("object", JString "files/txt/text-01.txt"); ("role", JString "OWNER")];
           JObject [("bucket", JString "some-bucket"); ("entity", JString "allUsers");
                    ("object", JString "files/txt/text-01.txt"); ("role", JString "READER")]]);
       ("timeCreated", JString "1970-01-01T00:00:00Z");
       ("timeDeleted", JString "0001-01-01T00:00:00Z");
       ("updated", JString "2006-01-02T15:04:05-07:00")].
Proof. reflexivity. Qed.

Example listBuckets_example :
  w_body (listBuckets MemoryBackend.backend newResponseWriter
            (<["zeta" := false]> (<["alpha" := true]> {[ "mid" := false ]})))
  = [JsonLine
       (JObject
          [("kind", JString "storage#buckets");
           ("items", JArray (bucketResponse_json <$>
                               (newBucketResponse <$> ["alpha"; "mid"; "zeta"])));
           ("prefixes", JNull)])].
Proof. reflexivity. Qed.


(** * Further properties of the builders and handlers *)

(** ** List responses *)

Lemma newListBucketsResponse_order_irrelevant (l l' : list string) :
  l ≡ₚ l' -> fst (newListBucketsResponse l) = fst (newListBucketsResponse l').
Proof.
  intros Hp.
  pose proof (newListBucketsResponse_items l) as Hl.
  pose proof (newListBucketsResponse_items l') as Hl'.
  rewrite (sort_Strings_order_irrelevant _ _ Hp) in Hl.
  destruct (newListBucketsResponse l) as [[k1 i1 p1] s1] eqn:E1.
  destruct (newListBucketsResponse l') as [[k2 i2 p2] s2] eqn:E2.
  simpl in *. subst i1 i2.
  unfold newListBucketsResponse in E1, E2.
  injection E1 as <- _ <- _. injection E2 as <- _ <- _. reflexivity.
Qed.

(** X1: the bucket list response has one item per name passed in, repeated
    names included; every slot that [make] left nil is filled; the JSON has
    [items] as an array of that length (empty, never null, for no names) and
    [prefixes] always null. *)
Theorem bucket_list_items_complete (bucketNames : list string) :
  let resp := fst (newListBucketsResponse bucketNames) in
  length (lr_Items resp) = length bucketNames
  /\ (ItemNil ∉ lr_Items resp)
  /\ (exists js, member "items" (listResponse_json resp) = Some (JArray js)
                 /\ length js = length bucketNames
                 /\ (JNull ∉ js))
  /\ member "prefixes" (listResponse_json resp) = Some JNull
  /\ member "kind" (listResponse_json resp) = Some (JString "storage#buckets").
Proof.
  cbv zeta.
  assert (lr_Prefixes (fst (newListBucketsResponse bucketNames)) = None) as Hp
    by reflexivity.
  assert (lr_Kind (fst (newListBucketsResponse bucketNames)) = "storage#buckets") as Hk
    by reflexivity.
  unfold listResponse_json. rewrite Hp, Hk.
  rewrite newListBucketsResponse_items. simpl member.
  split; [now rewrite length_fmap, sort_Strings_length|].
  split.
  { intros Hin. apply list_elem_of_fmap in Hin as (x & H & _). discriminate H. }
  split; [|split; reflexivity].
  eexists. split; [reflexivity|].
  split; [now rewrite !length_fmap, sort_Strings_length|].
  intros Hin. apply list_elem_of_fmap in Hin as (x & H & Hx).
  apply list_elem_of_fmap in Hx as (n & -> & _). discriminate H.
Qed.

(** X2: the object list response keeps the objects in the order given (it
    does not sort): its i-th item is the object response of the i-th object,
    no item is nil, and the prefixes are passed through, so that the JSON
    has [prefixes] null exactly for a nil slice. *)
Theorem object_list_keeps_order (id : Object -> string) (objs : list Object)
    (prefixes : option (list string)) :
  let resp := newListObjectsResponse id objs prefixes in
  length (lr_Items resp) = length objs
  /\ (forall (i : nat) (obj : Object),
        objs !! i = Some obj ->
        lr_Items resp !! i = Some (ItemObject (newObjectResponse id obj)))
  /\ (ItemNil ∉ lr_Items resp)
  /\ lr_Prefixes resp = prefixes
  /\ (member "prefixes" (listResponse_json resp) = Some JNull <-> prefixes = None)
  /\ member "kind" (listResponse_json resp) = Some (JString "storage#objects").
Proof.
  cbv zeta.
  assert (lr_Prefixes (newListObjectsResponse id objs prefixes) = prefixes) as Hp
    by reflexivity.
  unfold listResponse_json. rewrite Hp, newListObjectsResponse_items.
  split; [apply length_fmap|].
  split; [intros i obj Hi; now rewrite list_lookup_fmap, Hi|].
  split.
  { intros Hin. apply list_elem_of_fmap in Hin as (x & H & _). discriminate H. }
  split; [reflexivity|].
  split; [|reflexivity].
  simpl. destruct prefixes; simpl; split; intros H; congruence.
Qed.

Lemma object_list_keeps_order_witness :
  [objectOfSize 2; sampleObject] !! 1%nat = Some sampleObject
  /\ lr_Items (newListObjectsResponse sampleId [objectOfSize 2; sampleObject] None) !! 1%nat
     = Some (ItemObject (newObjectResponse sampleId sampleObject)).
Proof.
  split; [reflexivity|].
  destruct (object_list_keeps_order sampleId [objectOfSize 2; sampleObject] None)
    as (_ & Hi & _).
  apply (Hi 1%nat sampleObject). reflexivity.
Defined.

(** X3: [newListBucketsResponse] run again on the slice it left behind
    gives the same response and leaves the slice as it found it. *)
Theorem newListBucketsResponse_again (bucketNames : list string) :
  let first := newListBucketsResponse bucketNames in
  let second := newListBucketsResponse (snd first) in
  fst second = fst first /\ snd second = snd first.
Proof.
  cbv zeta. rewrite !newListBucketsResponse_slice. split.
  - apply newListBucketsResponse_order_irrelevant, sort_Strings_perm.
  - apply sort_Strings_fixed, sort_Strings_sorted.
Qed.

(** ** The JSON of an object response *)

Lemma append_nonempty (s1 s2 : string) : s2 <> "" -> (s1 ++ s2)%string <> "".
Proof. destruct s1; simpl; [done|discriminate]. Qed.

Lemma Format_RFC3339_nonempty (t : GoTime.Time) : GoTime.Format_RFC3339 t <> "".
Proof. unfold GoTime.Format_RFC3339. apply append_nonempty. discriminate. Qed.

Lemma eqb_empty_false (s : string) : s <> "" -> String.eqb s "" = false.
Proof. intros H. now apply String.eqb_neq. Qed.

Lemma member_optional_strings (o : objectResponse) :
  member "contentType" (objectResponse_json o)
  = (if String.eqb (or_ContentType o) "" then None else Some (JString (or_ContentType o)))
  /\ member "contentEncoding" (objectResponse_json o)
     = (if String.eqb (or_ContentEncoding o) "" then None
        else Some (JString (or_ContentEncoding o)))
  /\ member "crc32c" (objectResponse_json o)
     = (if String.eqb (or_Crc32c o) "" then None else Some (JString (or_Crc32c o)))
  /\ member "md5hash" (objectResponse_json o)
     = (if String.eqb (or_Md5Hash o) "" then None else Some (JString (or_Md5Hash o))).
Proof. unfold objectResponse_json. repeat split; omitted_or_not; reflexivity. Qed.

Lemma member_acl (o : objectResponse) :
  member "acl" (objectResponse_json o)
  = match or_ACL o with
    | [] => None
    | _ => Some (JArray (ObjectAccessControl_json <$> or_ACL o))
    end.
Proof. unfold objectResponse_json. omitted_or_not; reflexivity. Qed.

Lemma member_md5Hash_camel (o : objectResponse) :
  member "md5Hash" (objectResponse_json o) = None.
Proof. unfold objectResponse_json. omitted_or_not; reflexivity. Qed.

Section ObjectJSON.

Variable id : Object -> string.

(** X4: the three timestamps are members of every single-object response:
    the formatted time is never empty, so [omitempty] never drops
    [timeCreated], [timeDeleted] or [updated]. *)
Theorem timestamps_always_present (obj : Object) :
  let body := objectResponse_json (newObjectResponse id obj) in
  member "timeCreated" body = Some (JString (GoTime.Format_RFC3339 (Created obj)))
  /\ member "timeDeleted" body = Some (JString (GoTime.Format_RFC3339 (Deleted obj)))
  /\ member "updated" body = Some (JString (GoTime.Format_RFC3339 (Updated obj))).
Proof.
  cbv zeta. rewrite member_timeCreated, member_timeDeleted, member_updated.
  simpl or_TimeCreated; simpl or_TimeDeleted; simpl or_Updated.
  rewrite !eqb_empty_false by apply Format_RFC3339_nonempty. done.
Qed.

(** X5: [kind], [name], [id], [bucket] and [size] open every single-object
    response, whatever the object holds (an empty name is written as an
    empty string); the members present are always among the thirteen of
    the struct, in the order of its fields, none of them twice. *)
Theorem object_members_in_field_order (obj : Object) :
  let body := objectResponse_json (newObjectResponse id obj) in
  take 5 (keys body) = ["kind"; "name"; "id"; "bucket"; "size"]
  /\ member "name" body = Some (JString (Name obj))
  /\ member "bucket" body = Some (JString (BucketName obj))
  /\ member "id" body = Some (JString (id obj))
  /\ keys body `sublist_of` objectKeys
  /\ NoDup (keys body).
Proof.
  cbv zeta. do 4 (split; [reflexivity|]).
  assert (keys (objectResponse_json (newObjectResponse id obj)) `sublist_of` objectKeys)
    as Hsub.
  { generalize (newObjectResponse id obj). intros o.
    unfold objectResponse_json, objectKeys.
    omitted_or_not; simpl; repeat constructor. }
  split; [exact Hsub|].
  apply (sublist_NoDup _ objectKeys); [|exact Hsub].
  unfold objectKeys. apply (bool_decide_unpack (NoDup _)). vm_compute. exact I.
Qed.

(** X6: an optional text field of the object is a member of the response
    exactly when it is not empty, and then with its value; the MD5 goes
    under the key [md5hash], and no member is called [md5Hash]. *)
Theorem optional_members_omitted_when_empty (obj : Object) :
  let body := objectResponse_json (newObjectResponse id obj) in
  (member "contentType" body = None <-> ContentType obj = "")
  /\ (ContentType obj <> "" ->
      member "contentType" body = Some (JString (ContentType obj)))
  /\ (member "contentEncoding" body = None <-> ContentEncoding obj = "")
  /\ (ContentEncoding obj <> "" ->
      member "contentEncoding" body = Some (JString (ContentEncoding obj)))
  /\ (member "crc32c" body = None <-> Crc32c obj = "")
  /\ (Crc32c obj <> "" -> member "crc32c" body = Some (JString (Crc32c obj)))
  /\ (member "md5hash" body = None <-> Md5Hash obj = "")
  /\ (Md5Hash obj <> "" -> member "md5hash" body = Some (JString (Md5Hash obj)))
  /\ member "md5Hash" body = None.
Proof.
  cbv zeta.
  destruct (member_optional_strings (newObjectResponse id obj)) as (-> & -> & -> & ->).
  rewrite member_md5Hash_camel.
  simpl or_ContentType; simpl or_ContentEncoding; simpl or_Crc32c; simpl or_Md5Hash.
  repeat match goal with
         | |- context [String.eqb ?s ""] => destruct (String.eqb_spec s "")
         end;
    repeat split; intros; congruence.
Qed.

(** X7: the object response has an [acl] member exactly when the ACL list
    response of the same object has an items collection, that is when the
    object has ACL rules; both then carry the same entries, one JSON object
    per rule in the [acl] array. *)
Theorem acl_member_matches_acl_list (obj : Object) :
  let resp := newObjectResponse id obj in
  let body := objectResponse_json resp in
  (ACL obj = [] ->
     member "acl" body = None /\ aclItems (newACLListResponse obj) = None)
  /\ (ACL obj <> [] ->
      aclItems (newACLListResponse obj) = Some (or_ACL resp)
      /\ member "acl" body = Some (JArray (ObjectAccessControl_json <$> or_ACL resp))
      /\ length (or_ACL resp) = length (ACL obj))
  /\ (member "acl" body = None <-> aclItems (newACLListResponse obj) = None).
Proof.
  cbv zeta. rewrite member_acl. simpl or_ACL.
  unfold newACLListResponse, aclItems, len.
  rewrite getAccessControlsListFromObject_map.
  destruct (ACL obj) as [|r rs]; simpl.
  - split; [done|]. split; [done|]. done.
  - change (Z.of_nat (S (length rs)) =? 0) with false. simpl.
    split; [done|]. split.
    + intros _. split; [done|]. split; [done|]. now rewrite length_fmap.
    + split; discriminate.
Qed.

End ObjectJSON.

Lemma optional_members_omitted_when_empty_witness :
  ContentType sampleObject <> ""
  /\ member "contentType" (objectResponse_json (newObjectResponse sampleId sampleObject))
     = Some (JString "text/plain").
Proof.
  split; [discriminate|].
  destruct (optional_members_omitted_when_empty sampleId sampleObject) as (_ & H & _).
  apply H. discriminate.
Defined.

Lemma acl_member_matches_acl_list_witness :
  (ACL emptyACLObject = []
   /\ member "acl" (objectResponse_json (newObjectResponse sampleId emptyACLObject)) = None)
  /\ (ACL sampleObject <> []
      /\ aclItems (newACLListResponse sampleObject)
         = Some (or_ACL (newObjectResponse sampleId sampleObject))).
Proof.
  split; (split; [done|]).
  - destruct (acl_member_matches_acl_list sampleId emptyACLObject) as (H & _).
    apply H. reflexivity.
  - destruct (acl_member_matches_acl_list sampleId sampleObject) as (_ & H & _).
    apply H. discriminate.
Defined.

(** ** The error envelope *)

#[local] Instance apiError_json_inj : Inj (=) (=) apiError_json.
Proof. intros [d1 r1 m1] [d2 r2 m2] H. now injection H as -> -> ->. Qed.



(** ** The handlers, for every backend *)

Section HandlerAnswers.

Context {St : Type}.
Variable backend : Backend St.





End HandlerAnswers.

(** X13: the answer of [listBuckets] does not depend on the order in which
    the backend lists its buckets: two backends whose listings hold the same
    names give the same response. *)
Theorem listBuckets_order_independent {St1 St2 : Type}
    (b1 : Backend St1) (b2 : Backend St2) (s1 : St1) (s2 : St2)
    (l1 l2 : list string) :
  backend_ListBuckets b1 s1 = Ok l1 ->
  backend_ListBuckets b2 s2 = Ok l2 ->
  l1 ≡ₚ l2 ->
  listBuckets b1 newResponseWriter s1 = listBuckets b2 newResponseWriter s2.
Proof.
  intros H1 H2 Hp. unfold listBuckets. rewrite H1, H2.
  now rewrite (newListBucketsResponse_order_irrelevant _ _ Hp).
Qed.





Lemma listBuckets_order_independent_witness :
  listBuckets (listingBackend ["zeta"; "alpha"]) newResponseWriter tt
  = listBuckets MemoryBackend.backend newResponseWriter
      (<["zeta" := true]> {[ "alpha" := false ]}).
Proof.
  apply (listBuckets_order_independent (listingBackend ["zeta"; "alpha"])
           MemoryBackend.backend tt (<["zeta" := true]> {[ "alpha" := false ]})
           ["zeta"; "alpha"] ["alpha"; "zeta"]).
  - reflexivity.
  - reflexivity.
  - apply Permutation_swap.
Defined.
